(** * icinga_api: argument table, call of the framework and reported outcome

    A shallow embedding of [src/icinga_api.py].  The module's [main] builds an
    argument table, hands it to the host framework's [AnsibleModule], and
    leaves through [exit_json(changed=False, meta=module.params)].

    Python dictionaries are finite maps ([gmap string _]); Python values that
    travel through the parameters are a small value type [pyval].  The
    framework itself is not part of the repository: it is a parameter of
    [main], and what is assumed of it is stated where it is used. *)

From Stdlib Require Import ZArith String Ascii List.
From stdpp Require Import gmap strings list fin_maps.

Local Open Scope string_scope.
Local Open Scope Z_scope.

Set Warnings "-register-all".

(** ** Python values *)

(** The values the module's parameters range over.  A nested document (the
    [definition] payload, [headers]) keeps its keys in an association list. *)
Inductive pyval : Type :=
| PyNone
| PyBool (b : bool)
| PyInt (z : Z)
| PyStr (s : string)
| PyList (l : list pyval)
| PyTuple (l : list pyval)
| PyDict (d : list (string * pyval)).

(** The ['type'] attribute of an option. *)
Inductive pytype : Type := TStr | TInt | TBool | TDict.

#[global] Instance pytype_eq_dec : EqDecision pytype.
Proof. solve_decision. Defined.

(** One option of the argument table: the keys a source dictionary such as
    [{"required": True, "default": None, "type": 'str'}] may carry.  A key the
    dictionary omits reads as the framework's [v.get(key)] does: [required] as
    false, [default] as [None], no [type], no [choices], no [aliases]. *)
Record option_spec : Type := {
  required : bool;
  default : pyval;
  type : option pytype;
  choices : option (list string);
  aliases : list string
}.

(** A value stored in the argument table: an option dictionary, or any other
    Python value. *)
Inductive spec_entry : Type :=
| OptionSpec (o : option_spec)
| NotAnOption (v : pyval).

(** [d.update(e)]: the entries of [e] replace those of [d]. *)
Definition update {A} (d e : gmap string A) : gmap string A := e ∪ d.

(** ** The argument table of [main] *)

(** The dictionary [params] of [main], entry by entry. *)
Definition params : gmap string spec_entry :=
  list_to_map [
    ("url", OptionSpec {| required := true; default := PyNone;
        type := Some TStr; choices := None; aliases := [] |});
    ("port", OptionSpec {| required := false; default := PyStr "5665";
        type := Some TInt; choices := None; aliases := [] |});
    ("url_username", OptionSpec {| required := false; default := PyStr "root";
        type := None; choices := None; aliases := ["user"] |});
    ("url_password", OptionSpec {| required := false; default := PyStr "icinga";
        type := None; choices := None; aliases := ["password"] |});
    ("endpoint", OptionSpec {| required := true; default := PyNone;
        type := Some TStr; choices := Some ["objects"; "status"];
        aliases := [] |});
    ("object_family", OptionSpec {| required := false; default := PyNone;
        type := Some TStr;
        choices := Some ["zones"; "hostgroups"; "hosts"; "servicegroups";
                         "services"];
        aliases := [] |});
    ("object_name", OptionSpec {| required := false; default := PyNone;
        type := Some TStr; choices := None; aliases := ["name"] |});
    ("state", OptionSpec {| required := false; default := PyStr "present";
        type := Some TStr; choices := Some ["present"; "absent"];
        aliases := [] |});
    ("headers", OptionSpec {| required := false; default := PyDict [];
        type := Some TDict; choices := None; aliases := [] |});
    ("cascade_delete", OptionSpec {| required := false;
        default := PyBool false; type := Some TBool;
        choices := Some ["true"; "false"]; aliases := [] |});
    ("definition", OptionSpec {| required := false; default := PyDict [];
        type := Some TDict; choices := None; aliases := [] |})
  ].

(** Modelled from the spec: [url_argument_spec] is imported from the host
    framework ([ansible.module_utils.urls]) and is not part of the repository.
    It is the framework's table of URL options; the one the spec documents is
    [validate_certs] (boolean, default true).  [url], [url_username] and
    [url_password] are replaced by the entries of [params] above. *)
Definition url_argument_spec : gmap string spec_entry :=
  list_to_map [
    ("url", OptionSpec {| required := false; default := PyNone;
        type := None; choices := None; aliases := [] |});
    ("force", OptionSpec {| required := false; default := PyStr "no";
        type := Some TBool; choices := None; aliases := ["thirsty"] |});
    ("http_agent", OptionSpec {| required := false;
        default := PyStr "ansible-httpget";
        type := None; choices := None; aliases := [] |});
    ("use_proxy", OptionSpec {| required := false; default := PyStr "yes";
        type := Some TBool; choices := None; aliases := [] |});
    ("validate_certs", OptionSpec {| required := false; default := PyStr "yes";
        type := Some TBool; choices := None; aliases := [] |});
    ("url_username", OptionSpec {| required := false; default := PyNone;
        type := None; choices := None; aliases := [] |});
    ("url_password", OptionSpec {| required := false; default := PyNone;
        type := None; choices := None; aliases := [] |});
    ("force_basic_auth", OptionSpec {| required := false;
        default := PyStr "no";
        type := Some TBool; choices := None; aliases := [] |})
  ].

(** The third dictionary of [main]:
    [dict(mutually_exclusive=(('cascade_delete', 'definition')),
          check_invalid_arguments=False, supports_check_mode=True)].
    The doubled parentheses add nothing, so the first value is the pair of
    strings.  [main] merges these three entries INTO the argument table. *)
Definition stray_entries : gmap string spec_entry :=
  list_to_map [
    ("mutually_exclusive",
       NotAnOption (PyTuple [PyStr "cascade_delete"; PyStr "definition"]));
    ("check_invalid_arguments", NotAnOption (PyBool false));
    ("supports_check_mode", NotAnOption (PyBool true))
  ].

(** [argument_spec] as [main] leaves it after its two [update] calls. *)
Definition argument_spec : gmap string spec_entry :=
  update (update url_argument_spec params) stray_entries.

(** ** The framework *)

(** The keyword arguments of [AnsibleModule] that bear on argument handling,
    with the framework's defaults for the ones a caller leaves out. *)
Record kwargs : Type := {
  kw_argument_spec : gmap string spec_entry;
  kw_mutually_exclusive : list (list string);
  kw_check_invalid_arguments : bool;
  kw_supports_check_mode : bool
}.

(** How a call [AnsibleModule(...)] can end: it raises, it leaves the
    process through [fail_json], or it returns a module object, of which
    [main] reads [.params]. *)
Inductive construction : Type :=
| raises (exception : string)
| fails (msg : string)
| returns (module_params : gmap string pyval).

(** [AnsibleModule] lives in [ansible.module_utils.basic], outside the
    repository: a framework is any function from the keywords and the raw
    parameters to one of the three endings. *)
Definition framework : Type := kwargs → gmap string pyval → construction.

(** The one thing assumed of the framework where a theorem says so: it reads
    every value of the argument table as an option dictionary
    ([v.get('aliases')], [v.get('default')], ...), so a table value that is
    not a dictionary makes the call raise. *)
Definition reads_every_entry (fw : framework) : Prop :=
  ∀ kw raw k v,
    kw_argument_spec kw !! k = Some (NotAnOption v) →
    ∃ exception, fw kw raw = raises exception.

(** ** Outward effects and the reported outcome *)

Inductive verb : Type := GET | PUT | POST | DELETE.

#[global] Instance verb_eq_dec : EqDecision verb.
Proof. solve_decision. Defined.

Record HttpCall : Type := {
  method : verb;
  path : string;
  body : option pyval
}.

Record HttpResponse : Type := { http_status : Z }.

(** The remote API as the module's environment: what it would answer to a
    call. *)
Definition Transport : Type := HttpCall → HttpResponse.

(** What an invocation can do to the outside world. *)
Inductive effect : Type :=
| HttpRequest (c : HttpCall)
| PersistState (file : string) (content : pyval).

(** How an invocation leaves: [exit_json(changed=..., meta=...)] returns from
    the module without error, [fail_json] with one, and an exception that
    nothing catches ends it with a traceback. *)
Inductive reply : Type :=
| exit_json (changed : bool) (meta : gmap string pyval)
| fail_json (msg : string)
| traceback (exception : string).

Definition changed_of (r : reply) : bool :=
  match r with
  | exit_json c _ => c
  | fail_json _ | traceback _ => false
  end.

Definition failed_of (r : reply) : bool :=
  match r with
  | exit_json _ _ => false
  | fail_json _ | traceback _ => true
  end.

(** One run of the module: its reply and the effects it had, in order. *)
Record run : Type := {
  reported : reply;
  effects : list effect
}.

(** ** [main] *)

(** [AnsibleModule(argument_spec=argument_spec)]: the only keyword [main]
    passes; the others take the framework's defaults. *)
Definition main_kwargs : kwargs := {|
  kw_argument_spec := argument_spec;
  kw_mutually_exclusive := [];
  kw_check_invalid_arguments := true;
  kw_supports_check_mode := false
|}.

(** [main]: the two locals [changed] and [failed] are set and never read;
    the table is handed to [AnsibleModule]; when that call returns, the
    module leaves through [exit_json(changed=False, meta=module.params)].
    [main] has no handler around the call and nothing in it touches the
    transport, so no effect is logged. *)
Definition main (AnsibleModule : framework) (transport : Transport)
    (raw : gmap string pyval) : run :=
  let changed := false in
  let failed := false in
  match AnsibleModule main_kwargs raw with
  | raises exception =>
      {| reported := traceback exception; effects := [] |}
  | fails msg => {| reported := fail_json msg; effects := [] |}
  | returns module_params =>
      {| reported := exit_json false module_params; effects := [] |}
  end.

(** ** The request builder the spec describes *)

(** Modelled from the spec: these definitions follow the words of the spec's
    section 4.2; they are what the claims about HTTP verbs and responses
    compare [main] with. *)
Module Spec.

Definition str_field (p : gmap string pyval) (k : string) : option string :=
  match p !! k with Some (PyStr s) => Some s | _ => None end.

Definition bool_field (p : gmap string pyval) (k : string) : bool :=
  match p !! k with Some (PyBool b) => b | _ => false end.

(** [status] gives GET whatever the state; [objects] gives DELETE for
    [absent] and PUT otherwise. *)
Definition build_method (p : gmap string pyval) : verb :=
  if decide (str_field p "endpoint" = Some "status") then GET
  else if decide (str_field p "state" = Some "absent") then DELETE
  else PUT.

Definition build_path (p : gmap string pyval) : string :=
  if decide (str_field p "endpoint" = Some "status") then "/v1/status"
  else
    "/v1/objects/" +:+ from_option id "" (str_field p "object_family")
    +:+ match str_field p "object_name" with
        | Some n => "/" +:+ n
        | None => ""
        end
    +:+ (if decide (str_field p "state" = Some "absent")
         then (if bool_field p "cascade_delete" then "?cascade=1" else "")
         else "").

Definition build_body (p : gmap string pyval) : option pyval :=
  match build_method p with
  | PUT | POST => p !! "definition"
  | GET | DELETE => None
  end.

Definition build_call (p : gmap string pyval) : HttpCall :=
  {| method := build_method p; path := build_path p;
     body := build_body p |}.

Definition mutating (v : verb) : bool :=
  match v with GET => false | PUT | POST | DELETE => true end.

Definition is_2xx (status : Z) : bool :=
  (200 <=? status) && (status <? 300).

End Spec.

(** ** Sample invocations *)

(** Scenario A of the spec. *)
Definition scenario_A : gmap string pyval :=
  {[ "url" := PyStr "icinga.example.com"; "endpoint" := PyStr "status" ]}.

(** Scenario B of the spec: a zone to be present. *)
Definition zone_definition : pyval :=
  PyDict [("templates", PyList [PyStr "generic-zone"]);
          ("attrs", PyDict [("endpoints", PyList [PyStr "master"])])].

Definition scenario_B : gmap string pyval :=
  {[ "url" := PyStr "icinga.example.com";
     "endpoint" := PyStr "objects";
     "object_family" := PyStr "zones";
     "object_name" := PyStr "checker";
     "state" := PyStr "present";
     "definition" := zone_definition ]}.

(** Scenario C of the spec: a service to be absent, with its dependants. *)
Definition scenario_C : gmap string pyval :=
  {[ "url" := PyStr "icinga.example.com";
     "endpoint" := PyStr "objects";
     "object_family" := PyStr "services";
     "object_name" := PyStr "web!ssh";
     "state" := PyStr "absent";
     "cascade_delete" := PyBool true ]}.

Definition answers (status : Z) : Transport :=
  λ _, {| http_status := status |}.

(** Scenario D of the spec: no [endpoint] at all. *)
Definition scenario_D : gmap string pyval :=
  {[ "url" := PyStr "icinga.example.com" ]}.

(** A cascading delete that also carries a definition. *)
Definition cascade_with_definition : gmap string pyval :=
  <["definition" := zone_definition]> scenario_C.

(** A definition where the spec gives it no meaning: with [state = absent],
    and with [endpoint = status]. *)
Definition absent_with_definition : gmap string pyval :=
  <["definition" := zone_definition]> (delete "cascade_delete" scenario_C).

Definition status_with_definition : gmap string pyval :=
  <["definition" := zone_definition]> scenario_A.

(** The call the spec prescribes for the status endpoint. *)
Definition status_call : HttpCall :=
  {| method := GET; path := "/v1/status"; body := None |}.

(** ** Two sample frameworks *)

(** They show that what the theorems assume can be met; no theorem is about
    them. *)

Definition not_an_option (e : spec_entry) : bool :=
  match e with NotAnOption _ => true | OptionSpec _ => false end.

(** Raises on a table with a value that is not a dictionary, and otherwise
    hands the parameters back as they came. *)
Definition sample_framework : framework :=
  λ kw raw,
    if decide (map_Exists (λ _ e, not_an_option e = true)
                 (kw_argument_spec kw))
    then raises "AttributeError"
    else returns raw.

(** Returns whatever it is given. *)
Definition accepting_framework : framework := λ _ raw, returns raw.

(** * Properties *)

Lemma sample_framework_reads_every_entry : reads_every_entry sample_framework.
Proof.
  intros kw raw k v Hk. exists "AttributeError". unfold sample_framework.
  destruct (decide (map_Exists (λ _ e, not_an_option e = true)
                      (kw_argument_spec kw))) as [|Hn]; [reflexivity|].
  destruct Hn. exists k, (NotAnOption v). by split.
Defined.

(** ** The table after the two updates *)

Section Table.
Context (base : gmap string spec_entry).

(** The entries of the third dictionary are in the table whatever came
    before. *)
Lemma stray_entry_survives k e :
  stray_entries !! k = Some e →
  update (update base params) stray_entries !! k = Some e.
Proof. intros Hk. unfold update. by apply lookup_union_Some_l. Qed.

Lemma params_keys_are_not_stray k e :
  params !! k = Some e → stray_entries !! k = None.
Proof.
  revert k e.
  change (map_Forall (λ k _, stray_entries !! k = None) params).
  compute_done.
Qed.

(** The entries of [params] are in the table unchanged: they replace what
    [url_argument_spec()] brought and the third dictionary leaves them. *)
Lemma params_entry_survives k e :
  params !! k = Some e →
  update (update base params) stray_entries !! k = Some e.
Proof.
  intros Hk. unfold update.
  rewrite lookup_union_r by exact (params_keys_are_not_stray k e Hk).
  by apply lookup_union_Some_l.
Qed.

End Table.

Lemma mutually_exclusive_is_a_table_entry :
  argument_spec !! "mutually_exclusive"
  = Some (NotAnOption (PyTuple [PyStr "cascade_delete"; PyStr "definition"])).
Proof.
  apply (stray_entry_survives url_argument_spec). vm_compute. reflexivity.
Qed.

(** ** [main], whatever the framework *)

Section Main.
Context (fw : framework).

Lemma main_effects t raw : effects (main fw t raw) = [].
Proof. unfold main. by destruct (fw main_kwargs raw). Qed.

Lemma main_changed_false t raw :
  changed_of (reported (main fw t raw)) = false.
Proof. unfold main. by destruct (fw main_kwargs raw). Qed.

Lemma main_returned t raw p :
  fw main_kwargs raw = returns p →
  reported (main fw t raw) = exit_json false p.
Proof. intros H. unfold main. by rewrite H. Qed.

Lemma main_raised t raw exception :
  fw main_kwargs raw = raises exception →
  reported (main fw t raw) = traceback exception.
Proof. intros H. unfold main. by rewrite H. Qed.

(** On the table [main] builds, a framework that reads every entry
    raises. *)
Lemma main_raises t raw :
  reads_every_entry fw →
  ∃ exception,
    fw main_kwargs raw = raises exception
    ∧ reported (main fw t raw) = traceback exception.
Proof.
  intros Hfw.
  destruct (Hfw main_kwargs raw "mutually_exclusive" _
              mutually_exclusive_is_a_table_entry) as [exception He].
  exists exception. split; [exact He|by apply main_raised].
Qed.

End Main.

(** ** The reported outcome *)

(** C9: for every parameter set that passes argument validation, the reply is
    [exit_json] with [changed = false] and the validated parameters as
    [meta]; the [changed] field of the reply is false on every input,
    whatever the framework does. *)
Theorem main_changed_is_false fw t raw p :
  fw main_kwargs raw = returns p →
  reported (main fw t raw) = exit_json false p
  ∧ changed_of (reported (main fw t raw)) = false
  ∧ ∀ fw' t' raw', changed_of (reported (main fw' t' raw')) ≠ true.
Proof.
  intros Hp. split; [by apply main_returned|].
  split; [apply main_changed_false|].
  intros fw' t' raw'. by rewrite main_changed_false.
Qed.

Lemma main_changed_is_false_witness :
  reported (main accepting_framework (answers 201) scenario_B)
    = exit_json false scenario_B
  ∧ changed_of (reported (main accepting_framework (answers 201) scenario_B))
    = false
  ∧ ∀ fw' t' raw', changed_of (reported (main fw' t' raw')) ≠ true.
Proof.
  apply (main_changed_is_false accepting_framework (answers 201) scenario_B
           scenario_B).
  reflexivity.
Defined.

(** ** The runs the spec's scenarios describe *)

(** C1, the code at the failing input: scenario B is a PUT by the spec's
    mapping and the API would answer 200.  Whatever the framework does, the
    run reports no change and sends no request; with a framework that reads
    every table entry it ends in an exception, which counts as failed. *)
Theorem scenario_B_is_not_reconciled fw :
  reads_every_entry fw →
  Spec.mutating (Spec.build_method scenario_B) = true
  ∧ Spec.is_2xx (http_status (answers 200 (Spec.build_call scenario_B)))
    = true
  ∧ (∃ exception,
       reported (main fw (answers 200) scenario_B) = traceback exception)
  ∧ failed_of (reported (main fw (answers 200) scenario_B)) = true
  ∧ ∀ fw',
      changed_of (reported (main fw' (answers 200) scenario_B)) = false
      ∧ effects (main fw' (answers 200) scenario_B) = [].
Proof.
  intros Hfw.
  destruct (main_raises fw (answers 200) scenario_B Hfw) as (ex & _ & Hr).
  split; [by vm_compute|]. split; [by vm_compute|].
  rewrite Hr. split; [by exists ex|]. split; [reflexivity|].
  intros fw'. split; [apply main_changed_false|apply main_effects].
Qed.

Lemma scenario_B_is_not_reconciled_witness :
  Spec.mutating (Spec.build_method scenario_B) = true
  ∧ Spec.is_2xx (http_status (answers 200 (Spec.build_call scenario_B)))
    = true
  ∧ (∃ exception,
       reported (main sample_framework (answers 200) scenario_B)
       = traceback exception)
  ∧ failed_of (reported (main sample_framework (answers 200) scenario_B))
    = true
  ∧ ∀ fw',
      changed_of (reported (main fw' (answers 200) scenario_B)) = false
      ∧ effects (main fw' (answers 200) scenario_B) = [].
Proof.
  apply (scenario_B_is_not_reconciled sample_framework).
  exact sample_framework_reads_every_entry.
Defined.

(** C2, the code at the failing input: for scenario A the spec prescribes
    GET /v1/status.  Whatever the framework does, the run does not send that
    request; with a framework that reads every table entry it ends in an
    exception, which counts as failed. *)
Theorem scenario_A_is_not_fetched fw :
  reads_every_entry fw →
  Spec.build_call scenario_A = status_call
  ∧ (∃ exception,
       reported (main fw (answers 200) scenario_A) = traceback exception)
  ∧ failed_of (reported (main fw (answers 200) scenario_A)) = true
  ∧ ∀ fw',
      (HttpRequest status_call)
      ∉ (effects (main fw' (answers 200) scenario_A)).
Proof.
  intros Hfw.
  destruct (main_raises fw (answers 200) scenario_A Hfw) as (ex & _ & Hr).
  split; [by vm_compute|].
  rewrite Hr. split; [by exists ex|]. split; [reflexivity|].
  intros fw'. rewrite main_effects. apply not_elem_of_nil.
Qed.

Lemma scenario_A_is_not_fetched_witness :
  Spec.build_call scenario_A = status_call
  ∧ (∃ exception,
       reported (main sample_framework (answers 200) scenario_A)
       = traceback exception)
  ∧ failed_of (reported (main sample_framework (answers 200) scenario_A))
    = true
  ∧ ∀ fw',
      (HttpRequest status_call)
      ∉ (effects (main fw' (answers 200) scenario_A)).
Proof.
  apply (scenario_A_is_not_fetched sample_framework).
  exact sample_framework_reads_every_entry.
Defined.

(** C3, the code at the failing input: scenario C is a DELETE by the spec's
    mapping and the API would answer 404.  Whatever the framework does, no
    request is sent; with a framework that reads every table entry the run
    ends in an exception, which counts as failed. *)
Theorem scenario_C_delete_is_an_error fw :
  reads_every_entry fw →
  Spec.build_method scenario_C = DELETE
  ∧ http_status (answers 404 (Spec.build_call scenario_C)) = 404
  ∧ (∃ exception,
       reported (main fw (answers 404) scenario_C) = traceback exception)
  ∧ failed_of (reported (main fw (answers 404) scenario_C)) = true
  ∧ ∀ fw', effects (main fw' (answers 404) scenario_C) = [].
Proof.
  intros Hfw.
  destruct (main_raises fw (answers 404) scenario_C Hfw) as (ex & _ & Hr).
  split; [by vm_compute|]. split; [reflexivity|].
  rewrite Hr. split; [by exists ex|]. split; [reflexivity|].
  intros fw'. apply main_effects.
Qed.

Lemma scenario_C_delete_is_an_error_witness :
  Spec.build_method scenario_C = DELETE
  ∧ http_status (answers 404 (Spec.build_call scenario_C)) = 404
  ∧ (∃ exception,
       reported (main sample_framework (answers 404) scenario_C)
       = traceback exception)
  ∧ failed_of (reported (main sample_framework (answers 404) scenario_C))
    = true
  ∧ ∀ fw', effects (main fw' (answers 404) scenario_C) = [].
Proof.
  apply (scenario_C_delete_is_an_error sample_framework).
  exact sample_framework_reads_every_entry.
Defined.

(** ** What becomes of the keywords and of the table's declarations *)

(** C4, the code at the failing input: the exclusion of [cascade_delete] and
    [definition] is an entry of the table, not a keyword of the call; a
    framework that reads every table entry raises on the input that has
    both, exactly as it does on scenario A, which has neither. *)
Theorem exclusion_is_not_a_keyword fw t :
  reads_every_entry fw →
  kw_mutually_exclusive main_kwargs = []
  ∧ kw_argument_spec main_kwargs !! "mutually_exclusive"
    = Some (NotAnOption
              (PyTuple [PyStr "cascade_delete"; PyStr "definition"]))
  ∧ (∃ exception,
       reported (main fw t cascade_with_definition) = traceback exception)
  ∧ (∃ exception, reported (main fw t scenario_A) = traceback exception).
Proof.
  intros Hfw.
  destruct (main_raises fw t cascade_with_definition Hfw) as (ex & _ & Hr).
  destruct (main_raises fw t scenario_A Hfw) as (ex' & _ & Hr').
  split; [reflexivity|].
  split; [exact mutually_exclusive_is_a_table_entry|].
  split; [by exists ex|by exists ex'].
Qed.

Lemma exclusion_is_not_a_keyword_witness :
  kw_mutually_exclusive main_kwargs = []
  ∧ kw_argument_spec main_kwargs !! "mutually_exclusive"
    = Some (NotAnOption
              (PyTuple [PyStr "cascade_delete"; PyStr "definition"]))
  ∧ (∃ exception,
       reported (main sample_framework (answers 200) cascade_with_definition)
       = traceback exception)
  ∧ (∃ exception,
       reported (main sample_framework (answers 200) scenario_A)
       = traceback exception).
Proof.
  apply (exclusion_is_not_a_keyword sample_framework (answers 200)).
  exact sample_framework_reads_every_entry.
Defined.

(** C6, the code at the failing input: the table declares [endpoint]
    required, with the two choices; on scenario D, where only [endpoint] is
    missing, a framework that reads every table entry raises before it
    checks anything: the run does not end in [fail_json], so no field is
    named; no effect takes place. *)
Theorem missing_endpoint_names_no_field fw t :
  reads_every_entry fw →
  scenario_D !! "endpoint" = None
  ∧ kw_argument_spec main_kwargs !! "endpoint"
    = Some (OptionSpec {| required := true; default := PyNone;
         type := Some TStr; choices := Some ["objects"; "status"];
         aliases := [] |})
  ∧ (∃ exception,
       reported (main fw t scenario_D) = traceback exception)
  ∧ (∀ msg, reported (main fw t scenario_D) ≠ fail_json msg)
  ∧ effects (main fw t scenario_D) = [].
Proof.
  intros Hfw.
  destruct (main_raises fw t scenario_D Hfw) as (ex & _ & Hr).
  split; [by vm_compute|]. split; [by vm_compute|].
  rewrite Hr. split; [by exists ex|].
  split; [intros msg; discriminate|apply main_effects].
Qed.

Lemma missing_endpoint_names_no_field_witness :
  scenario_D !! "endpoint" = None
  ∧ kw_argument_spec main_kwargs !! "endpoint"
    = Some (OptionSpec {| required := true; default := PyNone;
         type := Some TStr; choices := Some ["objects"; "status"];
         aliases := [] |})
  ∧ (∃ exception,
       reported (main sample_framework (answers 200) scenario_D)
       = traceback exception)
  ∧ (∀ msg, reported (main sample_framework (answers 200) scenario_D)
            ≠ fail_json msg)
  ∧ effects (main sample_framework (answers 200) scenario_D) = [].
Proof.
  apply (missing_endpoint_names_no_field sample_framework (answers 200)).
  exact sample_framework_reads_every_entry.
Defined.

(** C7, the code at the failing input: the table declares the defaults
    ([present], ['5665'] read as an integer, [root] and [icinga] with the
    aliases [user] and [password]); on scenario A, which omits all four, a
    framework that reads every table entry raises, so the run has no
    validated parameters for the defaults to appear in. *)
Theorem defaults_are_declared_not_applied fw t :
  reads_every_entry fw →
  kw_argument_spec main_kwargs !! "state"
    = Some (OptionSpec {| required := false; default := PyStr "present";
         type := Some TStr; choices := Some ["present"; "absent"];
         aliases := [] |})
  ∧ kw_argument_spec main_kwargs !! "port"
    = Some (OptionSpec {| required := false; default := PyStr "5665";
         type := Some TInt; choices := None; aliases := [] |})
  ∧ kw_argument_spec main_kwargs !! "url_username"
    = Some (OptionSpec {| required := false; default := PyStr "root";
         type := None; choices := None; aliases := ["user"] |})
  ∧ kw_argument_spec main_kwargs !! "url_password"
    = Some (OptionSpec {| required := false; default := PyStr "icinga";
         type := None; choices := None; aliases := ["password"] |})
  ∧ (∃ exception, reported (main fw t scenario_A) = traceback exception)
  ∧ (∀ c p, reported (main fw t scenario_A) ≠ exit_json c p).
Proof.
  intros Hfw.
  destruct (main_raises fw t scenario_A Hfw) as (ex & _ & Hr).
  do 4 (split; [by vm_compute|]).
  rewrite Hr. split; [by exists ex|]. intros c p. discriminate.
Qed.

Lemma defaults_are_declared_not_applied_witness :
  kw_argument_spec main_kwargs !! "state"
    = Some (OptionSpec {| required := false; default := PyStr "present";
         type := Some TStr; choices := Some ["present"; "absent"];
         aliases := [] |})
  ∧ kw_argument_spec main_kwargs !! "port"
    = Some (OptionSpec {| required := false; default := PyStr "5665";
         type := Some TInt; choices := None; aliases := [] |})
  ∧ kw_argument_spec main_kwargs !! "url_username"
    = Some (OptionSpec {| required := false; default := PyStr "root";
         type := None; choices := None; aliases := ["user"] |})
  ∧ kw_argument_spec main_kwargs !! "url_password"
    = Some (OptionSpec {| required := false; default := PyStr "icinga";
         type := None; choices := None; aliases := ["password"] |})
  ∧ (∃ exception,
       reported (main sample_framework (answers 200) scenario_A)
       = traceback exception)
  ∧ (∀ c p, reported (main sample_framework (answers 200) scenario_A)
            ≠ exit_json c p).
Proof.
  apply (defaults_are_declared_not_applied sample_framework (answers 200)).
  exact sample_framework_reads_every_entry.
Defined.

(** C10, the code at the failing inputs: a definition supplied together with
    [state = absent], or with [endpoint = status], is not accepted: a
    framework that reads every table entry raises on both, so nothing is
    echoed. *)
Theorem stray_definition_is_not_accepted fw t :
  reads_every_entry fw →
  (∃ exception,
     reported (main fw t absent_with_definition) = traceback exception)
  ∧ (∀ c p, reported (main fw t absent_with_definition) ≠ exit_json c p)
  ∧ (∃ exception,
       reported (main fw t status_with_definition) = traceback exception)
  ∧ (∀ c p, reported (main fw t status_with_definition) ≠ exit_json c p).
Proof.
  intros Hfw.
  destruct (main_raises fw t absent_with_definition Hfw) as (ex & _ & Hr).
  destruct (main_raises fw t status_with_definition Hfw) as (ex' & _ & Hr').
  rewrite Hr, Hr'.
  split; [by exists ex|]. split; [intros c p; discriminate|].
  split; [by exists ex'|]. intros c p. discriminate.
Qed.

Lemma stray_definition_is_not_accepted_witness :
  (∃ exception,
     reported (main sample_framework (answers 200) absent_with_definition)
     = traceback exception)
  ∧ (∀ c p, reported (main sample_framework (answers 200)
                        absent_with_definition) ≠ exit_json c p)
  ∧ (∃ exception,
       reported (main sample_framework (answers 200) status_with_definition)
       = traceback exception)
  ∧ (∀ c p, reported (main sample_framework (answers 200)
                        status_with_definition) ≠ exit_json c p).
Proof.
  apply (stray_definition_is_not_accepted sample_framework (answers 200)).
  exact sample_framework_reads_every_entry.
Defined.

(** * Further properties *)

(** X11: with a framework that reads every entry of the table, no parameter
    set gets through: every run of [main] ends in the exception the
    framework raises, never in [exit_json] and never in [fail_json], and has
    no effect. *)
Theorem every_invocation_raises fw t raw :
  reads_every_entry fw →
  ∃ exception,
    fw main_kwargs raw = raises exception
    ∧ reported (main fw t raw) = traceback exception
    ∧ (∀ c p, reported (main fw t raw) ≠ exit_json c p)
    ∧ (∀ msg, reported (main fw t raw) ≠ fail_json msg)
    ∧ effects (main fw t raw) = [].
Proof.
  intros Hfw. destruct (main_raises fw t raw Hfw) as (ex & Hc & Hr).
  exists ex. split; [exact Hc|]. split; [exact Hr|]. rewrite Hr.
  split; [intros c p; discriminate|].
  split; [intros msg; discriminate|apply main_effects].
Qed.

Lemma every_invocation_raises_witness :
  ∃ exception,
    sample_framework main_kwargs scenario_B = raises exception
    ∧ reported (main sample_framework (answers 200) scenario_B)
      = traceback exception
    ∧ (∀ c p, reported (main sample_framework (answers 200) scenario_B)
              ≠ exit_json c p)
    ∧ (∀ msg, reported (main sample_framework (answers 200) scenario_B)
              ≠ fail_json msg)
    ∧ effects (main sample_framework (answers 200) scenario_B) = [].
Proof.
  apply (every_invocation_raises sample_framework (answers 200) scenario_B).
  exact sample_framework_reads_every_entry.
Defined.

(** X12: whatever table [url_argument_spec()] returns, after the two
    [update] calls of [main] every entry of [params] is in the table
    unchanged, and the three keywords of the third dictionary are entries of
    the table whose values are a tuple and two booleans. *)
Theorem table_after_the_updates (base : gmap string spec_entry) :
  (∀ k e, params !! k = Some e →
          update (update base params) stray_entries !! k = Some e)
  ∧ update (update base params) stray_entries !! "mutually_exclusive"
    = Some (NotAnOption
              (PyTuple [PyStr "cascade_delete"; PyStr "definition"]))
  ∧ update (update base params) stray_entries !! "check_invalid_arguments"
    = Some (NotAnOption (PyBool false))
  ∧ update (update base params) stray_entries !! "supports_check_mode"
    = Some (NotAnOption (PyBool true)).
Proof.
  split; [exact (params_entry_survives base)|].
  repeat split; apply stray_entry_survives; vm_compute; reflexivity.
Qed.
